(** * burrito: the Maybe monad of [monads.py]

    A shallow embedding of [monads.py]: the two classes [Just] and
    [Nothing] with their [map] and [bind] methods, the constructors
    [MaybeReturn] and [ListReturn], the curried directory look-ups
    [get_user_ufid] and [get_name], and the three monad laws the file
    demonstrates by printing.

    Python is dynamically typed, so the model has one type of run-time
    values and the method call [m.bind(f)] dispatches on the class of
    the receiver.  A Python callable may have effects and may raise, so
    callables are functions into a state-and-exception monad [Py St];
    a claim that a function "is not invoked" is then a statement on the
    final state, for every callable. *)

From Stdlib Require Import ZArith String Ascii DecimalString List.
From stdpp Require Import gmap strings.

Local Open Scope string_scope.
Local Open Scope Z_scope.

(** ** Run-time values *)

(** The values the program handles: [None], integers, strings, lists, and
    the instances of the two classes.  An instance of [Just] is determined
    by its attribute [value]; an instance of [Nothing] has no data of its
    own.  Instances are never mutated by the program, and are compared
    here by their content (the source compares them by printing them). *)
#[warnings="-register-all"]
Inductive value : Type :=
  | VNone
  | VInt (z : Z)
  | VStr (s : string)
  | VList (l : list value)
  | VJust (x : value)
  | VNothing.

(** The exceptions the modelled fragment can raise. *)
Inductive exn : Type :=
  | AttributeError (attr : string)
  | KeyError (key : string)
  | TypeError.

(** What a call does: it returns a value or raises. *)
Inductive outcome (A : Type) : Type :=
  | Returns (a : A)
  | Raises (e : exn).
Arguments Returns {A} a.
Arguments Raises {A} e.

(** ** Computations

    [Py St A] is a computation over a store of type [St] that returns an
    [A] or raises; the store after a raise is kept. *)
Definition Py (St A : Type) : Type := St -> outcome A * St.

Definition ret {St A} (a : A) : Py St A := fun s => (Returns a, s).

Definition raise {St A} (e : exn) : Py St A := fun s => (Raises e, s).

Definition seq {St A B} (c : Py St A) (k : A -> Py St B) : Py St B :=
  fun s =>
    match c s with
    | (Returns a, s') => k a s'
    | (Raises e, s') => (Raises e, s')
    end.

Notation "'let*' x ':=' c 'in' k" := (seq c (fun x => k))
  (at level 10, x name, c at level 100, k at level 200).

(** A Python callable of one argument. *)
Abbreviation callable St := (value -> Py St value).

(** ** class Just *)
Module Just.
(** [self] is given by its attribute [self.value]. *)

(** [def map(self, f): return Just(f(self.value))] *)
Definition map {St} (self_value : value) (f : callable St) : Py St value :=
  let* y := f self_value in ret (VJust y).

(** [def bind(self, f): return f(self.value)] *)
Definition bind {St} (self_value : value) (f : callable St) : Py St value :=
  f self_value.

(** [def __str__(self): return "Just(" + str(self.value) + ")"], given
    [str(self.value)]. *)
Definition __str__ (str_of_value : string) : string :=
  "Just(" ++ str_of_value ++ ")".
End Just.

(** ** class Nothing *)
Module Nothing.
(** [def __init__(self): self.value = None] *)
Definition init_value : value := VNone.

(** [def map(self, f): return Nothing()] *)
Definition map {St} (f : callable St) : Py St value := ret VNothing.

(** [def bind(self, f): return Nothing()] *)
Definition bind {St} (f : callable St) : Py St value := ret VNothing.

(** [def __str__(self): return "Nothing"] *)
Definition __str__ : string := "Nothing".
End Nothing.

(** ** Attribute access and method calls *)

(** [m.value]: the attribute both constructors set; other values of the
    model have no such attribute. *)
Definition getattr_value {St} (m : value) : Py St value :=
  match m with
  | VJust x => ret x
  | VNothing => ret Nothing.init_value
  | _ => raise (AttributeError "value")
  end.

(** [m.map(f)]: the method of the receiver's class. *)
Definition call_map {St} (m : value) (f : callable St) : Py St value :=
  match m with
  | VJust x => Just.map x f
  | VNothing => Nothing.map f
  | _ => raise (AttributeError "map")
  end.

(** [m.bind(f)]: the method of the receiver's class.  Only [Just] and
    [Nothing] define [bind]; a list, in particular, has none. *)
Definition call_bind {St} (m : value) (f : callable St) : Py St value :=
  match m with
  | VJust x => Just.bind x f
  | VNothing => Nothing.bind f
  | _ => raise (AttributeError "bind")
  end.

(** [def MaybeReturn(x): return Just(x)] *)
Definition MaybeReturn {St} (x : value) : Py St value := ret (VJust x).

(** [def ListReturn(x): return [x]] *)
Definition ListReturn {St} (x : value) : Py St value := ret (VList [x]).

(** [def always_fail(x): return Nothing()] *)
Definition always_fail {St} (x : value) : Py St value := ret VNothing.

(** The lambda [x -> [x, x*10]] of the sequence scenario.  [x * 10] is a
    product on integers and a ten-fold repetition on strings and lists;
    the other values have no [*]. *)
Fixpoint str_repeat (n : nat) (s : string) : string :=
  match n with
  | O => ""
  | S n' => s ++ str_repeat n' s
  end.

Definition times_ten {St} (x : value) : Py St value :=
  match x with
  | VInt z => ret (VInt (z * 10))
  | VStr t => ret (VStr (str_repeat 10 t))
  | VList l => ret (VList (concat (replicate 10 l)))
  | _ => raise TypeError
  end.

Definition pair_with_tenfold {St} (x : value) : Py St value :=
  let* y := times_ten x in ret (VList [x; y]).

(** ** The directory and the curried look-ups *)

(** A person is a Python dict from field names to strings. *)
Abbreviation person := (gmap string string).

(** [person[k]]: the field, or [KeyError]. *)
Definition getitem {St} (p : person) (k : string) : Py St string :=
  match p !! k with
  | Some v => ret v
  | None => raise (KeyError k)
  end.

(** [s == v] for a string [s]: true for an equal string only (no class of
    the model defines [__eq__]). *)
Definition str_eq (s : string) (v : value) : bool :=
  match v with
  | VStr t => String.eqb s t
  | _ => false
  end.

(** [directory], the two-person table of the source. *)
Definition directory : list person :=
  [ <["glid" := "albert"]> (<["ufid" := "00000000"]>
      (<["name" := "Albert Alligator"]> ∅));
    <["glid" := "alberta"]> (<["ufid" := "11111111"]>
      (<["name" := "Alberta Alligator"]> ∅)) ].

(** [get_user_ufid(dir)] returns the closure [find_ufid]:
<<
    for person in dir:
        if person["glid"] == gl:
            return Just(person["ufid"])
    return Nothing()
>> *)
Fixpoint get_user_ufid {St} (dir : list person) (gl : value) : Py St value :=
  match dir with
  | [] => ret VNothing
  | p :: rest =>
      let* k := getitem p "glid" in
      if str_eq k gl
      then (let* u := getitem p "ufid" in ret (VJust (VStr u)))
      else get_user_ufid rest gl
  end.

(** [get_name(dir)] returns the closure [find_name]:
<<
    for person in dir:
        if person["ufid"] == id:
            return Just(person["name"])
    return Nothing()
>> *)
Fixpoint get_name {St} (dir : list person) (id : value) : Py St value :=
  match dir with
  | [] => ret VNothing
  | p :: rest =>
      let* k := getitem p "ufid" in
      if str_eq k id
      then (let* n := getitem p "name" in ret (VJust (VStr n)))
      else get_name rest id
  end.

Definition get_user_ufid_from_directory {St} : callable St :=
  get_user_ufid directory.

Definition get_name_from_directory {St} : callable St :=
  get_name directory.

(** ** Chains of [bind]

    [m.bind(f1).bind(f2)....bind(fn)], evaluated left to right. *)
Fixpoint bind_chain {St} (m : value) (fs : list (callable St)) : Py St value :=
  match fs with
  | [] => ret m
  | f :: fs' => let* r := call_bind m f in bind_chain r fs'
  end.

(** ** A call-counting stub

    The store is the number of calls made so far; [counted g] computes
    the pure function [g] and counts the call. *)
Definition counted (g : value -> value) : callable nat :=
  fun x n => (Returns (g x), S n).

(** How many [Just] layers a value is wrapped in ([Nothing] is a container
    with nothing inside). *)
Fixpoint nesting (v : value) : nat :=
  match v with
  | VJust x => S (nesting x)
  | VNothing => 1
  | _ => 0
  end.

(** The receivers that are containers: instances of [Just] or [Nothing]. *)
Inductive Maybe : value -> Prop :=
  | Maybe_Just (x : value) : Maybe (VJust x)
  | Maybe_Nothing : Maybe VNothing.

(** [misses kf key p]: person [p] has the field [kf], and it differs from
    [key]. *)
Definition misses (kf : string) (key : value) (p : person) : Prop :=
  exists k, p !! kf = Some k /\ str_eq k key = false.

(** ** Printing

    [str(v)], which [print] applies to its argument.  A [Just] prints
    through its [__str__], which prints its attribute in turn.  A list
    prints the [repr] of its elements, which the model does not cover:
    there [py_str] is [None]. *)
Fixpoint py_str (v : value) : option string :=
  match v with
  | VNone => Some "None"
  | VInt z => Some (NilZero.string_of_int (Z.to_int z))
  | VStr s => Some s
  | VList _ => None
  | VJust x => option_map Just.__str__ (py_str x)
  | VNothing => Some Nothing.__str__
  end.

(** ** The user's GLID *)

(** [c.lower()] for one character.  The characters of the model are the
    code points below 256; the upper-case letters among them are [A]-[Z]
    and the Latin-1 letters 192-222 without the sign 215, and each has its
    lower-case form 32 places up. *)
Definition lower_char (c : ascii) : ascii :=
  let n := N_of_ascii c in
  if ((65 <=? n) && (n <=? 90)
      || (192 <=? n) && (n <=? 222) && negb (n =? 215))%N
  then ascii_of_N (n + 32)
  else c.

(** [s.lower()] *)
Fixpoint lower (s : string) : string :=
  match s with
  | EmptyString => EmptyString
  | String c s' => String (lower_char c) (lower s')
  end.

(** [def to_lower(s): return s.lower()]; only strings have [lower]. *)
Definition to_lower {St} (s : value) : Py St value :=
  match s with
  | VStr t => ret (VStr (lower t))
  | _ => raise (AttributeError "lower")
  end.

(** [def get_user_glid(): return Just("ALBERT")] *)
Definition get_user_glid {St} : Py St value := ret (VJust (VStr "ALBERT")).

(** [def get_clean_user_glid(): return get_user_glid().map(to_lower)] *)
Definition get_clean_user_glid {St} : Py St value :=
  let* m := get_user_glid in call_map m to_lower.

(** Whether a value is a container, as a test. *)
Definition is_container (v : value) : bool :=
  match v with
  | VJust _ | VNothing => true
  | _ => false
  end.

(** * Properties *)

(** ** The computation monad *)

Section PyLaws.
Context {St : Type}.

Lemma seq_ret {A B} (a : A) (k : A -> Py St B) (s : St) :
  seq (ret a) k s = k a s.
Proof. reflexivity. Qed.

Lemma seq_raise {A B} (e : exn) (k : A -> Py St B) (s : St) :
  seq (raise e) k s = (Raises e, s).
Proof. reflexivity. Qed.

Lemma seq_returns {A B} (c : Py St A) (k : A -> Py St B) s a s' :
  c s = (Returns a, s') -> seq c k s = k a s'.
Proof. intros E. unfold seq. now rewrite E. Qed.

Lemma seq_raises {A B} (c : Py St A) (k : A -> Py St B) s e s' :
  c s = (Raises e, s') -> seq c k s = (Raises e, s').
Proof. intros E. unfold seq. now rewrite E. Qed.

Lemma seq_assoc {A B C} (c : Py St A) (k : A -> Py St B)
    (h : B -> Py St C) (s : St) :
  seq (seq c k) h s = seq c (fun a => seq (k a) h) s.
Proof. unfold seq. destruct (c s) as [[a|e] s1]; reflexivity. Qed.
End PyLaws.

(** ** Examples from the source *)

Example ex_lookup_alberta :
  get_user_ufid_from_directory (VStr "alberta") tt
  = (Returns (VJust (VStr "11111111")), tt).
Proof. vm_compute. reflexivity. Qed.

Example ex_lookup_missing :
  get_user_ufid_from_directory (VStr "nonexistent") tt = (Returns VNothing, tt).
Proof. vm_compute. reflexivity. Qed.

Example ex_name_lookup :
  get_name_from_directory (VStr "00000000") tt
  = (Returns (VJust (VStr "Albert Alligator")), tt).
Proof. vm_compute. reflexivity. Qed.

(** [map] with a look-up nests the containers; [bind] does not. *)
Example ex_map_nests :
  call_map (VJust (VStr "albert")) get_user_ufid_from_directory tt
  = (Returns (VJust (VJust (VStr "00000000"))), tt).
Proof. vm_compute. reflexivity. Qed.

Example ex_bind_flat :
  call_bind (VJust (VStr "albert")) get_user_ufid_from_directory tt
  = (Returns (VJust (VStr "00000000")), tt).
Proof. vm_compute. reflexivity. Qed.

Example ex_pipeline :
  bind_chain (VJust (VStr "albert"))
    [get_user_ufid_from_directory; get_name_from_directory] tt
  = (Returns (VJust (VStr "Albert Alligator")), tt).
Proof. vm_compute. reflexivity. Qed.

Example ex_pipeline_from_Nothing :
  bind_chain VNothing
    [get_user_ufid_from_directory; get_name_from_directory] tt
  = (Returns VNothing, tt).
Proof. vm_compute. reflexivity. Qed.

(** Of two counting stubs chained after [Just], the first returning
    [Nothing], only one call is counted. *)
Example ex_pipeline_counted :
  bind_chain (VJust (VStr "albert"))
    [counted (fun _ => VNothing); counted (fun x => VJust x)] 0%nat
  = (Returns VNothing, 1%nat).
Proof. reflexivity. Qed.

(** The associativity print-out of the source, both groupings. *)
Example ex_assoc_left :
  (let* r := call_bind (VJust (VStr "albert")) get_user_ufid_from_directory
   in call_bind r get_name_from_directory) tt
  = (Returns (VJust (VStr "Albert Alligator")), tt).
Proof. vm_compute. reflexivity. Qed.

Example ex_assoc_right :
  call_bind (VJust (VStr "albert"))
    (fun x => let* r := get_user_ufid_from_directory x
              in call_bind r get_name_from_directory) tt
  = (Returns (VJust (VStr "Albert Alligator")), tt).
Proof. vm_compute. reflexivity. Qed.

Example ex_pair_with_tenfold :
  pair_with_tenfold (VInt 3) tt = (Returns (VList [VInt 3; VInt 30]), tt).
Proof. reflexivity. Qed.

(** ** The Maybe container *)

(** C1. [bind] on [Just(x)] is the call [f(x)] itself: the same result,
    not wrapped again, and the same effects; [bind] on [Nothing] returns
    [Nothing] and leaves the store untouched whatever [f] is, so [f] is
    not called.  With a counting stub: one call counted on [Just(x)], none
    on [Nothing]. *)
Theorem bind_spec (St : Type) (f : callable St) (s : St) :
  (forall x, call_bind (VJust x) f s = f x s)
  /\ call_bind VNothing f s = (Returns VNothing, s)
  /\ (forall (g : value -> value) x (n : nat),
        call_bind (VJust x) (counted g) n = (Returns (g x), S n)
        /\ call_bind VNothing (counted g) n = (Returns VNothing, n)).
Proof. repeat split. Qed.

(** [bind] adds no layer to what [f] returns, [map] adds one. *)
Lemma bind_adds_no_layer {St} (f : callable St) x r (s s' : St) :
  f x s = (Returns r, s') ->
  exists r', call_bind (VJust x) f s = (Returns r', s')
             /\ nesting r' = nesting r.
Proof. intros E. exists r. split; [exact E|reflexivity]. Qed.

Lemma map_adds_one_layer {St} (f : callable St) x r (s s' : St) :
  f x s = (Returns r, s') ->
  exists r', call_map (VJust x) f s = (Returns r', s')
             /\ nesting r' = S (nesting r).
Proof.
  intros E. exists (VJust r). split; [|reflexivity].
  cbn. unfold Just.map. now rewrite (seq_returns _ _ _ _ _ E).
Qed.

(** C2 as stated fails: reading [value] off a [Nothing] returns [None]
    and raises nothing. *)
Lemma extract_from_Nothing_is_silent :
  getattr_value VNothing tt = (Returns VNone, tt)
  /\ ~ (exists e s', getattr_value VNothing tt = (@Raises value e, s')).
Proof.
  split; [reflexivity|]. intros (e & s' & E). discriminate E.
Qed.

(** C2, amended. Reading [value] off a [Nothing] does not fail: it returns
    the [None] that [__init__] stored, which is also what [Just(None)]
    gives; off a [Just(x)] it returns [x]. *)
Theorem extract_value_spec (St : Type) (s : St) :
  getattr_value VNothing s = (Returns VNone, s)
  /\ getattr_value VNothing s = getattr_value (VJust VNone) s
  /\ forall x, getattr_value (VJust x) s = (Returns x, s).
Proof. repeat split. Qed.

(** C3 as stated fails: lists have no [bind]; the call raises. *)
Lemma list_bind_raises :
  call_bind (VList [VInt 1; VInt 2; VInt 3]) pair_with_tenfold tt
  = (Raises (AttributeError "bind"), tt)
  /\ call_bind (VList [VInt 1; VInt 2; VInt 3]) pair_with_tenfold tt
     <> (Returns
           (VList [VInt 1; VInt 10; VInt 2; VInt 20; VInt 3; VInt 30]), tt).
Proof. split; [reflexivity|discriminate]. Qed.

(** C3, amended. For sequences the source has the unit only:
    [ListReturn(x)] is the one-element list [[x]]; [bind] on a list raises
    [AttributeError] without calling [f]. *)
Theorem list_unit_only (St : Type) (s : St) :
  (forall x, ListReturn x s = (Returns (VList [x]), s))
  /\ forall l (f : callable St),
       call_bind (VList l) f s = (Raises (AttributeError "bind"), s).
Proof. split; reflexivity. Qed.

(** C4. Associativity: [m.bind(f).bind(g)] and
    [m.bind(lambda x: f(x).bind(g))] have the same outcome and the same
    effects, for every receiver [m] ([Nothing] included) and all [f], [g]. *)
Theorem bind_assoc (St : Type) (m : value) (f g : callable St) (s : St) :
  (let* r := call_bind m f in call_bind r g) s
  = call_bind m (fun x => let* r := f x in call_bind r g) s.
Proof. destruct m; reflexivity. Qed.

(** C5. Left identity: [MaybeReturn(x).bind(f)] is [f(x)]. *)
Theorem left_identity (St : Type) (x : value) (f : callable St) (s : St) :
  (let* m := MaybeReturn x in call_bind m f) s = f x s.
Proof. reflexivity. Qed.

(** C6. Right identity: [m.bind(MaybeReturn)] returns [m], for [Just(x)]
    and for [Nothing]. *)
Theorem right_identity (St : Type) (m : value) (s : St) :
  Maybe m -> call_bind m MaybeReturn s = (Returns m, s).
Proof. intros [x|]; reflexivity. Qed.

Lemma right_identity_witness :
  call_bind (VJust (VStr "albert")) MaybeReturn tt
  = (Returns (VJust (VStr "albert")), tt)
  /\ call_bind VNothing MaybeReturn tt = (Returns VNothing, tt).
Proof.
  split.
  - apply (right_identity unit _ tt (Maybe_Just (VStr "albert"))).
  - apply (right_identity unit _ tt Maybe_Nothing).
Defined.

(** C7. For a container [m], [m.map(f)] is
    [m.bind(lambda x: MaybeReturn(f(x)))]: same outcome, same effects. *)
Theorem map_as_bind (St : Type) (m : value) (f : callable St) (s : St) :
  Maybe m ->
  call_map m f s = call_bind m (fun x => let* y := f x in MaybeReturn y) s.
Proof. intros [x|]; reflexivity. Qed.

Lemma map_as_bind_witness :
  call_map (VJust (VInt 4)) times_ten tt
  = call_bind (VJust (VInt 4))
      (fun x => let* y := times_ten x in MaybeReturn y) tt
  /\ call_map (VJust (VInt 4)) times_ten tt = (Returns (VJust (VInt 40)), tt).
Proof.
  split.
  - apply (map_as_bind unit _ times_ten tt (Maybe_Just (VInt 4))).
  - reflexivity.
Defined.

(** ** Chains *)

Lemma bind_chain_Nothing {St} (fs : list (callable St)) (s : St) :
  bind_chain VNothing fs s = (Returns VNothing, s).
Proof. induction fs as [|f fs IH]; [reflexivity|]. cbn. exact IH. Qed.

Lemma bind_chain_app {St} (m : value) (pre post : list (callable St)) s :
  bind_chain m (pre ++ post) s
  = (let* r := bind_chain m pre in bind_chain r post) s.
Proof.
  revert m s. induction pre as [|f pre IH]; intros m s; [reflexivity|].
  cbn [bind_chain app]. rewrite seq_assoc.
  destruct (call_bind m f s) as [[r|e] s1] eqn:E.
  - rewrite !(seq_returns _ _ _ _ _ E). apply IH.
  - now rewrite !(seq_raises _ _ _ _ _ E).
Qed.

(** C8. Absence is absorbing: once the chain so far has produced
    [Nothing], any further stages leave the result [Nothing] and the store
    as it was; the further stages are arbitrary callables, so none of them
    is called. *)
Theorem absence_is_absorbing (St : Type) (m : value)
    (pre post : list (callable St)) (s s' : St) :
  bind_chain m pre s = (Returns VNothing, s') ->
  bind_chain m (pre ++ post) s = (Returns VNothing, s').
Proof.
  intros E. rewrite bind_chain_app. rewrite (seq_returns _ _ _ _ _ E).
  apply bind_chain_Nothing.
Qed.

Lemma absence_is_absorbing_witness :
  bind_chain (VJust (VStr "albert"))
    ([counted (fun _ => VNothing)] ++ [counted (fun x => VJust x)]) 0%nat
  = (Returns VNothing, 1%nat).
Proof.
  apply (absence_is_absorbing nat (VJust (VStr "albert"))
           [counted (fun _ => VNothing)] [counted (fun x => VJust x)]
           0%nat 1%nat).
  reflexivity.
Defined.

(** C10. [map] on [Just(x)] returns [Just(f(x))] after the one call
    [f(x)]; on [Nothing] it returns [Nothing] and the store is untouched.
    With a counting stub the count goes up by one, respectively stays. *)
Theorem map_spec (St : Type) (f : callable St) (s : St) :
  (forall x y s', f x s = (Returns y, s') ->
     call_map (VJust x) f s = (Returns (VJust y), s'))
  /\ call_map VNothing f s = (Returns VNothing, s)
  /\ (forall (g : value -> value) x (n : nat),
        call_map (VJust x) (counted g) n = (Returns (VJust (g x)), S n)
        /\ call_map VNothing (counted g) n = (Returns VNothing, n)).
Proof.
  split; [|split; [reflexivity|split; reflexivity]].
  intros x y s' E. cbn. unfold Just.map. now rewrite (seq_returns _ _ _ _ _ E).
Qed.

Lemma map_spec_witness :
  call_map (VJust (VInt 4)) times_ten tt = (Returns (VJust (VInt 40)), tt).
Proof.
  apply (proj1 (map_spec unit times_ten tt) (VInt 4) (VInt 40) tt).
  reflexivity.
Defined.

(** ** The curried look-ups *)

Lemma str_eq_refl (k : string) : str_eq k (VStr k) = true.
Proof. apply String.eqb_refl. Qed.

Lemma getitem_Some {St} (p : person) (k v : string) (s : St) :
  p !! k = Some v -> getitem p k s = (Returns v, s).
Proof. intros E. unfold getitem. now rewrite E. Qed.

Lemma getitem_None {St} (p : person) (k : string) (s : St) :
  p !! k = None -> getitem p k s = (@Raises string (KeyError k), s).
Proof. intros E. unfold getitem. now rewrite E. Qed.

(** One turn of either loop: rewrite the field read, then decide the test. *)
Ltac loop_turn Hk :=
  rewrite (seq_returns _ _ _ _ _ (getitem_Some _ _ _ _ Hk)).

Lemma get_user_ufid_hit {St} (p : person) rest (key r : string) (s : St) :
  p !! "glid" = Some key -> p !! "ufid" = Some r ->
  get_user_ufid (p :: rest) (VStr key) s = (Returns (VJust (VStr r)), s).
Proof.
  intros Hk Hr. cbn [get_user_ufid]. loop_turn Hk.
  rewrite str_eq_refl. now loop_turn Hr.
Qed.

Lemma get_user_ufid_miss {St} (p : person) rest (gl : value) (s : St) :
  misses "glid" gl p ->
  get_user_ufid (p :: rest) gl s = get_user_ufid rest gl s.
Proof.
  intros (k & Hk & Hne). cbn [get_user_ufid]. loop_turn Hk. now rewrite Hne.
Qed.

Lemma get_name_hit {St} (p : person) rest (key r : string) (s : St) :
  p !! "ufid" = Some key -> p !! "name" = Some r ->
  get_name (p :: rest) (VStr key) s = (Returns (VJust (VStr r)), s).
Proof.
  intros Hk Hr. cbn [get_name]. loop_turn Hk.
  rewrite str_eq_refl. now loop_turn Hr.
Qed.

Lemma get_name_miss {St} (p : person) rest (id : value) (s : St) :
  misses "ufid" id p ->
  get_name (p :: rest) id s = get_name rest id s.
Proof.
  intros (k & Hk & Hne). cbn [get_name]. loop_turn Hk. now rewrite Hne.
Qed.

(** A record without the key field stops the scan with [KeyError]; a
    matching record without the result field does so too. *)
Lemma get_user_ufid_no_key_field {St} (p : person) rest (gl : value) (s : St) :
  p !! "glid" = None ->
  get_user_ufid (p :: rest) gl s = (Raises (KeyError "glid"), s).
Proof.
  intros E. cbn [get_user_ufid].
  now rewrite (seq_raises _ _ _ _ _ (getitem_None _ _ _ E)).
Qed.

Lemma get_user_ufid_no_result_field {St} (p : person) rest (key : string)
    (s : St) :
  p !! "glid" = Some key -> p !! "ufid" = None ->
  get_user_ufid (p :: rest) (VStr key) s = (Raises (KeyError "ufid"), s).
Proof.
  intros Hk Hr. cbn [get_user_ufid]. loop_turn Hk. rewrite str_eq_refl.
  now rewrite (seq_raises _ _ _ _ _ (getitem_None _ _ _ Hr)).
Qed.

(** C9. Each look-up scans the table in order: if the records before [p]
    all have a different key and [p] has the key, the result is [Just] of
    the result field of [p], whatever follows [p] (so of two records with
    the same key the first wins); if every record has a different key the
    result is [Nothing].  [get_user_ufid] keys on ["glid"] and yields
    ["ufid"]; [get_name] keys on ["ufid"] and yields ["name"]. *)
Theorem lookup_first_match (St : Type) (s : St) :
  (forall (pre post : list person) (p : person) (key r : string),
      Forall (misses "glid" (VStr key)) pre ->
      p !! "glid" = Some key -> p !! "ufid" = Some r ->
      get_user_ufid (pre ++ p :: post) (VStr key) s
      = (Returns (VJust (VStr r)), s))
  /\ (forall (dir : list person) (key : value),
      Forall (misses "glid" key) dir ->
      get_user_ufid dir key s = (Returns VNothing, s))
  /\ (forall (pre post : list person) (p : person) (key r : string),
      Forall (misses "ufid" (VStr key)) pre ->
      p !! "ufid" = Some key -> p !! "name" = Some r ->
      get_name (pre ++ p :: post) (VStr key) s
      = (Returns (VJust (VStr r)), s))
  /\ (forall (dir : list person) (key : value),
      Forall (misses "ufid" key) dir ->
      get_name dir key s = (Returns VNothing, s)).
Proof.
  repeat split.
  - intros pre post p key r Hpre Hk Hr.
    induction Hpre as [|q pre Hq _ IH]; cbn [app].
    + now apply get_user_ufid_hit.
    + now rewrite get_user_ufid_miss.
  - intros dir key Hdir.
    induction Hdir as [|q dir Hq _ IH]; [reflexivity|].
    now rewrite get_user_ufid_miss.
  - intros pre post p key r Hpre Hk Hr.
    induction Hpre as [|q pre Hq _ IH]; cbn [app].
    + now apply get_name_hit.
    + now rewrite get_name_miss.
  - intros dir key Hdir.
    induction Hdir as [|q dir Hq _ IH]; [reflexivity|].
    now rewrite get_name_miss.
Qed.

(** A table in which two records share the glid ["alberta"]: the first of
    them answers. *)
Lemma lookup_first_match_witness :
  get_user_ufid
    ([<["glid" := "albert"]> (<["ufid" := "00000000"]> ∅)]
       ++ <["glid" := "alberta"]> (<["ufid" := "11111111"]> ∅)
       :: [<["glid" := "alberta"]> (<["ufid" := "22222222"]> ∅)])
    (VStr "alberta") tt
  = (Returns (VJust (VStr "11111111")), tt).
Proof.
  apply (proj1 (lookup_first_match unit tt)).
  - constructor; [|constructor].
    exists "albert". split; reflexivity.
  - reflexivity.
  - reflexivity.
Defined.

(** * Further properties *)

(** ** [map] as a functor *)

(** X1. Mapping the identity function over a container returns the
    container. *)
Theorem map_identity (St : Type) (m : value) (s : St) :
  Maybe m -> call_map m (fun x => ret x) s = (Returns m, s).
Proof. intros [x|]; reflexivity. Qed.

Lemma map_identity_witness :
  call_map (VJust (VInt 7)) (fun x => ret x) tt = (Returns (VJust (VInt 7)), tt).
Proof. apply (map_identity unit _ tt (Maybe_Just (VInt 7))). Defined.

(** X2. Two [map]s in a row are one [map] of the composed function: same
    outcome, same effects, for every receiver. *)
Theorem map_compose (St : Type) (m : value) (f g : callable St) (s : St) :
  (let* r := call_map m f in call_map r g) s
  = call_map m (fun x => let* y := f x in g y) s.
Proof.
  destruct m; try reflexivity.
  cbn. unfold Just.map. rewrite !seq_assoc. unfold seq at 1 3.
  destruct (f m s) as [[y|e] s1]; reflexivity.
Qed.

(** X3. On a container, [map] followed by [bind] is one [bind] of the
    composed function. *)
Theorem map_then_bind (St : Type) (m : value) (f g : callable St) (s : St) :
  Maybe m ->
  (let* r := call_map m f in call_bind r g) s
  = call_bind m (fun x => let* y := f x in g y) s.
Proof.
  intros [x|]; [|reflexivity].
  cbn. unfold Just.map, Just.bind. rewrite seq_assoc. unfold seq at 1 3.
  destruct (f x s) as [[y|e] s1]; reflexivity.
Qed.

Lemma map_then_bind_witness :
  (let* r := call_map (VJust (VStr "ALBERT")) to_lower
   in call_bind r get_user_ufid_from_directory) tt
  = call_bind (VJust (VStr "ALBERT"))
      (fun x => let* y := to_lower x in get_user_ufid_from_directory y) tt.
Proof.
  apply (map_then_bind unit _ to_lower get_user_ufid_from_directory tt
           (Maybe_Just (VStr "ALBERT"))).
Defined.

(** X4. [map] cannot turn presence into absence or back: what it returns
    on a container is a container, and it is [Nothing] exactly when the
    receiver is. *)
Theorem map_keeps_variant (St : Type) (m r : value) (f : callable St)
    (s s' : St) :
  Maybe m -> call_map m f s = (Returns r, s') ->
  Maybe r /\ (r = VNothing <-> m = VNothing).
Proof.
  intros [x|] E; cbn in E.
  - unfold Just.map, seq in E. destruct (f x s) as [[y|e] s1]; [|discriminate].
    inversion E; subst. split; [constructor|]. split; discriminate.
  - inversion E; subst. split; [constructor|tauto].
Qed.

Lemma map_keeps_variant_witness :
  Maybe (VJust (VJust (VStr "00000000")))
  /\ (VJust (VJust (VStr "00000000")) = VNothing
      <-> VJust (VStr "albert") = VNothing).
Proof.
  apply (map_keeps_variant unit (VJust (VStr "albert")) _
           get_user_ufid_from_directory tt tt (Maybe_Just _)).
  vm_compute. reflexivity.
Defined.

(** X5. With the same function on the same [Just], [map] returns one
    container layer more than [bind]: mapping a function that returns a
    container nests, binding it does not. *)
Theorem map_nests_deeper_than_bind (St : Type) (f : callable St)
    (x r : value) (s s' : St) :
  f x s = (Returns r, s') ->
  exists rm rb,
    call_map (VJust x) f s = (Returns rm, s')
    /\ call_bind (VJust x) f s = (Returns rb, s')
    /\ nesting rm = S (nesting rb).
Proof.
  intros E. exists (VJust r), r. repeat split; [|exact E].
  cbn. unfold Just.map. now rewrite (seq_returns _ _ _ _ _ E).
Qed.

Lemma map_nests_deeper_than_bind_witness :
  exists rm rb,
    call_map (VJust (VStr "albert")) get_user_ufid_from_directory tt
    = (Returns rm, tt)
    /\ call_bind (VJust (VStr "albert")) get_user_ufid_from_directory tt
       = (Returns rb, tt)
    /\ nesting rm = S (nesting rb).
Proof.
  apply (map_nests_deeper_than_bind unit get_user_ufid_from_directory
           (VStr "albert") (VJust (VStr "00000000")) tt tt).
  vm_compute. reflexivity.
Defined.

(** X6. Neither method catches: when [f(x)] raises, [Just(x).map(f)] and
    [Just(x).bind(f)] raise the same exception, in the store [f] left. *)
Theorem raise_propagates (St : Type) (f : callable St) (x : value) (e : exn)
    (s s' : St) :
  f x s = (Raises e, s') ->
  call_map (VJust x) f s = (Raises e, s')
  /\ call_bind (VJust x) f s = (Raises e, s').
Proof.
  intros E. split; [|exact E].
  cbn. unfold Just.map. now rewrite (seq_raises _ _ _ _ _ E).
Qed.

Lemma raise_propagates_witness :
  call_map (VJust (VInt 5)) to_lower tt = (Raises (AttributeError "lower"), tt)
  /\ call_bind (VJust (VInt 5)) to_lower tt
     = (Raises (AttributeError "lower"), tt).
Proof.
  apply (raise_propagates unit to_lower (VInt 5) (AttributeError "lower") tt tt).
  reflexivity.
Defined.

(** ** Lower-casing *)





(** The source's clean GLID, and the pipelines printed from it. *)
Example ex_get_clean_user_glid :
  get_clean_user_glid tt = (Returns (VJust (VStr "albert")), tt).
Proof. reflexivity. Qed.

Example ex_clean_pipeline :
  (let* m := get_clean_user_glid
   in bind_chain m [get_user_ufid_from_directory; get_name_from_directory]) tt
  = (Returns (VJust (VStr "Albert Alligator")), tt).
Proof. vm_compute. reflexivity. Qed.

Example ex_clean_pipeline_always_fail :
  (let* m := get_clean_user_glid
   in bind_chain m [always_fail; get_name_from_directory]) tt
  = (Returns VNothing, tt).
Proof. vm_compute. reflexivity. Qed.

(** Without the cleaning the upper-case GLID is not in the directory. *)
Example ex_unclean_pipeline :
  (let* m := get_user_glid
   in bind_chain m [get_user_ufid_from_directory; get_name_from_directory]) tt
  = (Returns VNothing, tt).
Proof. vm_compute. reflexivity. Qed.

(** ** More on chains *)






(** X11. [always_fail] after stages that returned a container makes the
    whole chain [Nothing], whatever stages follow it, in the store the
    earlier stages left. *)
Theorem always_fail_poisons (St : Type) (m r : value)
    (pre post : list (callable St)) (s s' : St) :
  bind_chain m pre s = (Returns r, s') -> is_container r = true ->
  bind_chain m (pre ++ always_fail :: post) s = (Returns VNothing, s').
Proof.
  intros E Hr. rewrite bind_chain_app. rewrite (seq_returns _ _ _ _ _ E).
  destruct r; try discriminate Hr; cbn; apply bind_chain_Nothing.
Qed.

Lemma always_fail_poisons_witness :
  bind_chain (VJust (VStr "albert"))
    ([get_user_ufid_from_directory]
       ++ always_fail :: [get_name_from_directory]) tt
  = (Returns VNothing, tt).
Proof.
  apply (always_fail_poisons unit (VJust (VStr "albert"))
           (VJust (VStr "00000000")) [get_user_ufid_from_directory]
           [get_name_from_directory] tt tt); vm_compute; reflexivity.
Defined.

(** ** More on the look-ups *)

Lemma str_eq_true (k : string) (v : value) :
  str_eq k v = true -> v = VStr k.
Proof.
  destruct v; try discriminate. cbn. intros E.
  apply String.eqb_eq in E. now subst.
Qed.

Lemma get_user_ufid_first {St} (pre post : list person) (p : person)
    (key r : string) (s : St) :
  Forall (misses "glid" (VStr key)) pre ->
  p !! "glid" = Some key -> p !! "ufid" = Some r ->
  get_user_ufid (pre ++ p :: post) (VStr key) s
  = (Returns (VJust (VStr r)), s).
Proof.
  intros Hpre Hk Hr. induction Hpre as [|q pre Hq _ IH]; cbn [app].
  - now apply get_user_ufid_hit.
  - now rewrite get_user_ufid_miss.
Qed.

Lemma get_name_first {St} (pre post : list person) (p : person)
    (key r : string) (s : St) :
  Forall (misses "ufid" (VStr key)) pre ->
  p !! "ufid" = Some key -> p !! "name" = Some r ->
  get_name (pre ++ p :: post) (VStr key) s = (Returns (VJust (VStr r)), s).
Proof.
  intros Hpre Hk Hr. induction Hpre as [|q pre Hq _ IH]; cbn [app].
  - now apply get_name_hit.
  - now rewrite get_name_miss.
Qed.

(** One turn of either loop, by cases on the two field reads and the
    test. *)
Ltac loop_cases p kf rf key :=
  unfold seq, getitem, ret, raise;
  destruct (p !! kf) as [?k|] eqn:?Hk;
  [destruct (str_eq k key) eqn:?Hq; [destruct (p !! rf) as [?u|] eqn:?Hu|]|].

(** X12. A look-up has no effect and four possible outcomes: [Nothing],
    [Just] of a string, [KeyError] on the key field, [KeyError] on the
    result field.  It never returns a bare or a nested value. *)
Theorem lookup_outcomes (St : Type) (dir : list person) (key : value)
    (s : St) :
  (exists o, get_user_ufid dir key s = (o, s)
     /\ (o = Returns VNothing \/ (exists u, o = Returns (VJust (VStr u)))
         \/ o = Raises (KeyError "glid") \/ o = Raises (KeyError "ufid")))
  /\ (exists o, get_name dir key s = (o, s)
     /\ (o = Returns VNothing \/ (exists n, o = Returns (VJust (VStr n)))
         \/ o = Raises (KeyError "ufid") \/ o = Raises (KeyError "name"))).
Proof.
  split.
  - induction dir as [|p dir IH]; [eexists; split; [reflexivity|tauto]|].
    cbn [get_user_ufid]. loop_cases p "glid" "ufid" key;
      try exact IH; eexists; (split; [reflexivity|]); eauto.
  - induction dir as [|p dir IH]; [eexists; split; [reflexivity|tauto]|].
    cbn [get_name]. loop_cases p "ufid" "name" key;
      try exact IH; eexists; (split; [reflexivity|]); eauto.
Qed.

(** X13. No false negatives and no false positives for absence: a look-up
    returns [Nothing] exactly when every record has the key field and
    none equals the key. *)
Theorem lookup_Nothing_iff (St : Type) (dir : list person) (key : value)
    (s : St) :
  (get_user_ufid dir key s = (Returns VNothing, s)
   <-> Forall (misses "glid" key) dir)
  /\ (get_name dir key s = (Returns VNothing, s)
      <-> Forall (misses "ufid" key) dir).
Proof.
  split; split.
  - induction dir as [|p dir IH]; [constructor|].
    cbn [get_user_ufid]. loop_cases p "glid" "ufid" key; try discriminate.
    intros E. constructor; [now exists k|now apply IH].
  - intros H. induction H as [|q dir Hq _ IH]; [reflexivity|].
    now rewrite get_user_ufid_miss.
  - induction dir as [|p dir IH]; [constructor|].
    cbn [get_name]. loop_cases p "ufid" "name" key; try discriminate.
    intros E. constructor; [now exists k|now apply IH].
  - intros H. induction H as [|q dir Hq _ IH]; [reflexivity|].
    now rewrite get_name_miss.
Qed.

(** X14. A [Just] from [get_user_ufid] always comes from the first record
    with that key: the key is a string, the records before that record
    have other keys, and the content is its result field. *)
Theorem get_user_ufid_Just_inv (St : Type) (dir : list person)
    (gl r : value) (s s' : St) :
  get_user_ufid dir gl s = (Returns (VJust r), s') ->
  exists (pre : list person) p post key u,
    dir = (pre ++ p :: post)%list /\ gl = VStr key /\ r = VStr u
    /\ Forall (misses "glid" gl) pre
    /\ p !! "glid" = Some key /\ p !! "ufid" = Some u.
Proof.
  induction dir as [|p dir IH]; [discriminate|].
  cbn [get_user_ufid]. loop_cases p "glid" "ufid" gl; try discriminate.
  - intros E. inversion E; subst. apply str_eq_true in Hq. subst.
    exists [], p, dir, k, u. repeat split; auto.
  - intros E. destruct (IH E) as (pre & q & post & key & u & -> & -> & -> & Hpre & Hk' & Hu).
    exists (p :: pre), q, post, key, u. repeat split; auto.
    constructor; [now exists k|exact Hpre].
Qed.

Lemma get_user_ufid_Just_inv_witness :
  exists (pre : list person) p post key u,
    directory = (pre ++ p :: post)%list /\ VStr "alberta" = VStr key
    /\ VStr "11111111" = VStr u
    /\ Forall (misses "glid" (VStr "alberta")) pre
    /\ p !! "glid" = Some key /\ p !! "ufid" = Some u.
Proof.
  apply (get_user_ufid_Just_inv unit directory (VStr "alberta")
           (VStr "11111111") tt tt).
  vm_compute. reflexivity.
Defined.

(** X15. The same for [get_name], on the fields ["ufid"] and ["name"]. *)
Theorem get_name_Just_inv (St : Type) (dir : list person)
    (id r : value) (s s' : St) :
  get_name dir id s = (Returns (VJust r), s') ->
  exists (pre : list person) p post key n,
    dir = (pre ++ p :: post)%list /\ id = VStr key /\ r = VStr n
    /\ Forall (misses "ufid" id) pre
    /\ p !! "ufid" = Some key /\ p !! "name" = Some n.
Proof.
  induction dir as [|p dir IH]; [discriminate|].
  cbn [get_name]. loop_cases p "ufid" "name" id; try discriminate.
  - intros E. inversion E; subst. apply str_eq_true in Hq. subst.
    exists [], p, dir, k, u. repeat split; auto.
  - intros E. destruct (IH E) as (pre & q & post & key & u & -> & -> & -> & Hpre & Hk' & Hu).
    exists (p :: pre), q, post, key, u. repeat split; auto.
    constructor; [now exists k|exact Hpre].
Qed.

Lemma get_name_Just_inv_witness :
  exists (pre : list person) p post key n,
    directory = (pre ++ p :: post)%list /\ VStr "00000000" = VStr key
    /\ VStr "Albert Alligator" = VStr n
    /\ Forall (misses "ufid" (VStr "00000000")) pre
    /\ p !! "ufid" = Some key /\ p !! "name" = Some n.
Proof.
  apply (get_name_Just_inv unit directory (VStr "00000000")
           (VStr "Albert Alligator") tt tt).
  vm_compute. reflexivity.
Defined.

(** X16. [get_user_ufid] raises [KeyError] at the first record that stops
    the scan without an answer: a record without the key field, or the
    first record with the key if it has no result field.  Records after
    it are not read. *)
Theorem get_user_ufid_KeyError (St : Type) (pre post : list person)
    (p : person) (key : value) (s : St) :
  Forall (misses "glid" key) pre ->
  (p !! "glid" = None ->
   get_user_ufid (pre ++ p :: post) key s = (Raises (KeyError "glid"), s))
  /\ (forall k, key = VStr k -> p !! "glid" = Some k -> p !! "ufid" = None ->
      get_user_ufid (pre ++ p :: post) key s = (Raises (KeyError "ufid"), s)).
Proof.
  intros Hpre. induction Hpre as [|q pre Hq _ [IH1 IH2]]; cbn [app].
  - split.
    + apply get_user_ufid_no_key_field.
    + intros k -> Hk Hr. now apply get_user_ufid_no_result_field.
  - split.
    + intros Hk. rewrite get_user_ufid_miss by exact Hq. now apply IH1.
    + intros k E Hk Hr. rewrite get_user_ufid_miss by exact Hq.
      now apply (IH2 k).
Qed.

Lemma get_user_ufid_KeyError_witness :
  get_user_ufid
    ([<["glid" := "albert"]> (<["ufid" := "00000000"]> ∅)]
       ++ <["ufid" := "11111111"]> ∅
       :: [<["glid" := "alberta"]> (<["ufid" := "22222222"]> ∅)])
    (VStr "alberta") tt
  = (Raises (KeyError "glid"), tt).
Proof.
  apply (get_user_ufid_KeyError unit).
  - constructor; [|constructor]. exists "albert". split; reflexivity.
  - reflexivity.
Defined.

(** X17. The same for [get_name], on the fields ["ufid"] and ["name"]. *)
Theorem get_name_KeyError (St : Type) (pre post : list person)
    (p : person) (id : value) (s : St) :
  Forall (misses "ufid" id) pre ->
  (p !! "ufid" = None ->
   get_name (pre ++ p :: post) id s = (Raises (KeyError "ufid"), s))
  /\ (forall k, id = VStr k -> p !! "ufid" = Some k -> p !! "name" = None ->
      get_name (pre ++ p :: post) id s = (Raises (KeyError "name"), s)).
Proof.
  intros Hpre. induction Hpre as [|q pre Hq _ [IH1 IH2]]; cbn [app].
  - split.
    + intros Hk. cbn [get_name].
      now rewrite (seq_raises _ _ _ _ _ (getitem_None _ _ _ Hk)).
    + intros k -> Hk Hr. cbn [get_name]. loop_turn Hk. rewrite str_eq_refl.
      now rewrite (seq_raises _ _ _ _ _ (getitem_None _ _ _ Hr)).
  - split.
    + intros Hk. rewrite get_name_miss by exact Hq. now apply IH1.
    + intros k E Hk Hr. rewrite get_name_miss by exact Hq. now apply (IH2 k).
Qed.

Lemma get_name_KeyError_witness :
  get_name
    ([<["ufid" := "00000000"]> (<["name" := "Albert Alligator"]> ∅)]
       ++ <["glid" := "alberta"]> (<["ufid" := "11111111"]> ∅) :: [])
    (VStr "11111111") tt
  = (Raises (KeyError "name"), tt).
Proof.
  apply (proj2 (get_name_KeyError unit
                  [<["ufid" := "00000000"]> (<["name" := "Albert Alligator"]> ∅)]
                  [] (<["glid" := "alberta"]> (<["ufid" := "11111111"]> ∅))
                  (VStr "11111111") tt
                  ltac:(constructor; [exists "00000000"; split; reflexivity
                                     |constructor]))
           "11111111"); reflexivity.
Defined.

(** X18. The two look-ups chained over one table return the name of the
    person with the given GLID, provided no earlier record carries that
    person's UFID. *)
Theorem pipeline_same_person (St : Type) (pre post : list person)
    (p : person) (g u n : string) (s : St) :
  Forall (misses "glid" (VStr g)) pre -> Forall (misses "ufid" (VStr u)) pre ->
  p !! "glid" = Some g -> p !! "ufid" = Some u -> p !! "name" = Some n ->
  bind_chain (VJust (VStr g))
    [get_user_ufid (pre ++ p :: post); get_name (pre ++ p :: post)] s
  = (Returns (VJust (VStr n)), s).
Proof.
  intros Hg Hu Eg Eu En. cbn [bind_chain call_bind]. unfold Just.bind.
  rewrite (seq_returns _ _ _ _ _ (get_user_ufid_first pre post p g u s Hg Eg Eu)).
  cbn [call_bind]. unfold Just.bind.
  now rewrite (seq_returns _ _ _ _ _ (get_name_first pre post p u n s Hu Eu En)).
Qed.

Lemma pipeline_same_person_witness :
  bind_chain (VJust (VStr "alberta"))
    [get_user_ufid
       ([<["glid" := "albert"]> (<["ufid" := "00000000"]>
           (<["name" := "Albert Alligator"]> ∅))]
        ++ <["glid" := "alberta"]> (<["ufid" := "11111111"]>
             (<["name" := "Alberta Alligator"]> ∅)) :: []);
     get_name
       ([<["glid" := "albert"]> (<["ufid" := "00000000"]>
           (<["name" := "Albert Alligator"]> ∅))]
        ++ <["glid" := "alberta"]> (<["ufid" := "11111111"]>
             (<["name" := "Alberta Alligator"]> ∅)) :: [])] tt
  = (Returns (VJust (VStr "Alberta Alligator")), tt).
Proof.
  apply (pipeline_same_person unit _ [] _ "alberta" "11111111"
           "Alberta Alligator" tt).
  - constructor; [|constructor]. exists "albert". split; reflexivity.
  - constructor; [|constructor]. exists "00000000". split; reflexivity.
  - reflexivity.
  - reflexivity.
  - reflexivity.
Defined.

(** ** Printing *)




Example ex_str_nested :
  py_str (VJust (VJust (VStr "00000000"))) = Some "Just(Just(00000000))".
Proof. reflexivity. Qed.

Example ex_str_MaybeReturn_5 : py_str (VJust (VInt 5)) = Some "Just(5)".
Proof. reflexivity. Qed.
